(** * UnityMcpServer tools: the scriptable-object dispatchers

    Shallow embedding of
      - [src/UnityMcpServer/src/tools/modify_scriptable_object.py]
      - [src/UnityMcpServer/src/tools/create_scriptable_object.py]
    and the properties of their validation, parameter building and
    forwarding to the Unity connection.

    [action.lower()] is modelled exactly on strings of the ASCII range; on
    other strings its result is a variable of the section that holds the
    tools, so that no property depends on the Unicode case tables. *)

From Stdlib Require Import SpecFloat Ascii String.
From stdpp Require Import gmap strings list fin_maps.

Set Warnings "-register-all,-clear-no-such-hyp".

Local Open Scope string_scope.

(** ** Python values *)

(** The values a tool argument, a parameter dictionary entry or a result
    can hold: [None], [bool], [int] (unbounded), [float] (binary64), [str],
    [list] and [dict] with string keys. *)
Inductive pyval : Type :=
  | PNone
  | PBool (b : bool)
  | PInt (z : Z)
  | PFloat (f : spec_float)
  | PStr (s : string)
  | PList (l : list pyval)
  | PDict (d : gmap string pyval).

(** [x is None] *)
Definition is_None (v : pyval) : bool :=
  match v with PNone => true | _ => false end.

(** [d.get(key)] on a value: the entry of a dictionary, nothing otherwise. *)
Definition py_get (v : pyval) (key : string) : option pyval :=
  match v with PDict d => d !! key | _ => None end.

(** An argument annotated [Optional[str]] / [str = None]. *)
Definition of_opt_str (o : option string) : pyval :=
  match o with None => PNone | Some s => PStr s end.

(** An argument annotated [Optional[int]]. *)
Definition of_opt_int (o : option Z) : pyval :=
  match o with None => PNone | Some z => PInt z end.

(** Truth value of a [str]-or-[None] argument, as [not x] tests it: [None]
    and the empty string are false, every other string is true. *)
Definition truthy (o : option string) : bool :=
  match o with
  | None => false
  | Some s => negb (String.eqb s "")
  end.

(** ** [str.lower] *)

(** A [string] holds a Python [str] as the bytes of its UTF-8 encoding: a
    character of the ASCII range is one byte below 128, every other
    character is a run of bytes from 128 up. *)
Definition is_ascii_char (c : ascii) : bool := Nat.ltb (nat_of_ascii c) 128.

Fixpoint is_ascii (s : string) : bool :=
  match s with
  | EmptyString => true
  | String c s' => is_ascii_char c && is_ascii s'
  end.

(** [str.lower] on a string of the ASCII range: [A]..[Z] go to [a]..[z],
    every other character is kept. *)
Definition lower_ascii (c : ascii) : ascii :=
  let n := nat_of_ascii c in
  if Nat.leb 65 n && Nat.leb n 90 then ascii_of_nat (n + 32) else c.

Fixpoint ascii_lower (s : string) : string :=
  match s with
  | EmptyString => EmptyString
  | String c s' => String (lower_ascii c) (ascii_lower s')
  end.

(** A stand-in for the case tables in concrete runs. The runs of this file
    use actions of the ASCII range, on which it is never consulted. *)
Definition keep_non_ascii (s : string) : string := s.

(** The characters [str.lower] changes: the ASCII capitals. *)
Definition is_upper (c : ascii) : bool :=
  let n := nat_of_ascii c in Nat.leb 65 n && Nat.leb n 90.

Fixpoint has_upper (s : string) : bool :=
  match s with
  | EmptyString => false
  | String c s' => is_upper c || has_upper s'
  end.

(** [x in l] for a list of strings. *)
Definition py_in (x : string) (l : list string) : bool :=
  bool_decide (x ∈ l).

(** ** The Unity connection *)

(** What a call leaves its caller with: a returned value or a raised
    exception. *)
Inductive outcome : Type :=
  | Returns (v : pyval)
  | Raises (e : string).

(** A tool body: it returns a value, or awaits
    [get_unity_connection().send_command(cmd, params)] and goes on with the
    value that call returns. *)
Inductive tool : Type :=
  | Return (v : pyval)
  | SendCommand (cmd : string) (params : gmap string pyval) (k : pyval → tool).

(** One [send_command] call as the connection saw it. *)
Record call : Type := Call {
  commandName : string;
  params : gmap string pyval
}.

(** Running a tool body against a connection [send]: the outcome for the
    caller and the calls the connection received, in order. An exception of
    the connection is not caught by the tool. *)
Fixpoint run (send : string → gmap string pyval → outcome) (t : tool)
  : outcome * list call :=
  match t with
  | Return v => (Returns v, [])
  | SendCommand cmd ps k =>
      match send cmd ps with
      | Returns v => let '(o, cs) := run send (k v) in (o, Call cmd ps :: cs)
      | Raises e => (Raises e, [Call cmd ps])
      end
  end.

(** The value a body returns at once, if it does. *)
Definition run_value (t : tool) : pyval :=
  match t with Return v => v | SendCommand _ _ _ => PNone end.

(** Two dictionaries with the same entries are equal whatever the order
    the entries were stored in: [at_key k s] settles the key [s]. *)
Ltac at_key k s :=
  destruct (decide (k = s)) as [->|]; [by simplify_map_eq|].

(** ** The tools *)

Section Tools.

(** What [str.lower] gives on a string that holds a character outside the
    ASCII range. It follows the Unicode case tables of the interpreter
    (some characters change length, some depend on their neighbours), which
    are no part of this repository: nothing is assumed of it, so every
    property below holds whatever those tables say. *)
Variable unicode_lower : string → string.

(** [str.lower], as [action.lower()] calls it. *)
Definition lower (s : string) : string :=
  if is_ascii s then ascii_lower s else unicode_lower s.

(** ** [modify_scriptable_object] *)

(** The three lists the guards consult, as the source spells them. *)
Definition property_actions : list string :=
  ["get_property"; "set_property"; "list_array_elements";
   "inspect_array_detailed"; "add_array_element"; "remove_array_element";
   "set_array_element"].

Definition set_actions : list string :=
  ["set_property"; "add_array_element"; "set_array_element"].

Definition array_element_actions : list string :=
  ["remove_array_element"; "set_array_element"].

(** The dictionary literal of the early returns,
    [{"success": False, "message": msg, "data": None}]. *)
Definition failure (msg : string) : pyval :=
  PDict {[ "success" := PBool false; "message" := PStr msg; "data" := PNone ]}.

(** [params_dict[key] = v] guarded by [if v is not None]. *)
Definition set_if_not_None (key : string) (v : pyval)
    (d : gmap string pyval) : gmap string pyval :=
  if is_None v then d else <[key := v]> d.

(** The tool body. [asset_path] is annotated [str], but the first guard
    tests it with [not], so both [None] and the empty string are modelled;
    [property_value] is any value, [None] included. *)
Definition modify_scriptable_object
    (action : string) (asset_path : option string)
    (property_name : option string) (property_value : pyval)
    (property_type : option string) (index : option Z) : tool :=
  if negb (truthy asset_path) then
    Return (failure "asset_path is required")
  else if py_in action property_actions && negb (truthy property_name) then
    Return (failure ("property_name is required for action '" ++ action ++ "'"))
  else if py_in action set_actions && is_None property_value then
    Return (failure ("property_value is required for action '" ++ action ++ "'"))
  else if py_in action array_element_actions && is_None (of_opt_int index) then
    Return (failure ("index is required for action '" ++ action ++ "'"))
  else
    let params_dict : gmap string pyval :=
      {[ "action" := PStr (lower action);
         "asset_path" := of_opt_str asset_path ]} in
    let params_dict := set_if_not_None "property_name" (of_opt_str property_name) params_dict in
    let params_dict := set_if_not_None "property_value" property_value params_dict in
    let params_dict := set_if_not_None "property_type" (of_opt_str property_type) params_dict in
    let params_dict := set_if_not_None "index" (of_opt_int index) params_dict in
    SendCommand "HandleModifyScriptableObject" params_dict (λ result, Return result).

(** ** [create_scriptable_object] *)

(** The tool body: no guard, the parameters are built and forwarded. *)
Definition create_scriptable_object
    (action : string) (name subfolder type_name path : option string) : tool :=
  let params_dict : gmap string pyval :=
    {[ "action" := PStr (lower action) ]} in
  let params_dict := set_if_not_None "name" (of_opt_str name) params_dict in
  let params_dict := set_if_not_None "subfolder" (of_opt_str subfolder) params_dict in
  let params_dict := set_if_not_None "type_name" (of_opt_str type_name) params_dict in
  let params_dict := set_if_not_None "path" (of_opt_str path) params_dict in
  SendCommand "HandleCreateScriptableObject" params_dict (λ result, Return result).

(** The actions the docstring of [modify_scriptable_object] lists. *)
Definition modify_actions : list string :=
  ["get_properties"; "get_property"; "set_property"; "get_info";
   "list_array_elements"; "inspect_array_detailed"; "add_array_element";
   "remove_array_element"; "set_array_element"].

(** The actions the docstring of [create_scriptable_object] lists. *)
Definition create_actions : list string :=
  ["create_ai_character"; "create_ai_interaction"; "create_custom";
   "list_types"].

(** A connection for concrete runs: it answers every command with a success
    dictionary that echoes the parameters it was given. *)
Definition echo_send (cmd : string) (ps : gmap string pyval) : outcome :=
  Returns (PDict {[ "success" := PBool true; "message" := PStr cmd;
                    "data" := PDict ps ]}).

(** A connection that is down: every command raises. *)
Definition down_send (cmd : string) (ps : gmap string pyval) : outcome :=
  Raises "ConnectionError".

(** The four guards of [modify_scriptable_object], none of which fires. *)
Definition modify_checks_pass (action : string) (asset_path property_name : option string)
    (property_value : pyval) (index : option Z) : Prop :=
  truthy asset_path = true
  ∧ (action ∈ property_actions → truthy property_name = true)
  ∧ (action ∈ set_actions → property_value ≠ PNone)
  ∧ (action ∈ array_element_actions → index ≠ None).

(** * Properties *)

(** ** Running a tool body *)

Lemma run_forward send cmd ps :
  run send (SendCommand cmd ps (λ result, Return result))
  = (send cmd ps, [Call cmd ps]).
Proof. simpl. by destruct (send cmd ps). Qed.

(** ** Small facts on the helpers *)

Lemma py_in_true x l : x ∈ l → py_in x l = true.
Proof. intros H. unfold py_in. by apply bool_decide_eq_true. Qed.

Lemma py_in_false x l : x ∉ l → py_in x l = false.
Proof. intros H. unfold py_in. by apply bool_decide_eq_false. Qed.

Lemma is_None_false v : v ≠ PNone → is_None v = false.
Proof. by destruct v. Qed.

Lemma truthy_Some_inv o : truthy o = true → ∃ s, o = Some s ∧ s ≠ "".
Proof.
  destruct o as [s|]; simpl; [|done].
  intros H. exists s. split; [done|].
  intros ->. by rewrite String.eqb_refl in H.
Qed.

Lemma lookup_set_if_not_None_ne key key' v (d : gmap string pyval) :
  key ≠ key' → set_if_not_None key v d !! key' = d !! key'.
Proof.
  intros H. unfold set_if_not_None.
  destruct (is_None v); [done|]. by rewrite lookup_insert_ne.
Qed.

Lemma failure_message msg : py_get (failure msg) "message" = Some (PStr msg).
Proof.
  unfold failure, py_get.
  rewrite lookup_insert_ne by done. apply lookup_insert_eq.
Qed.

Lemma failure_inj m1 m2 : failure m1 = failure m2 → m1 = m2.
Proof.
  intros H. apply (f_equal (λ v, py_get v "message")) in H.
  rewrite !failure_message in H. congruence.
Qed.

(** ** The guards of [modify_scriptable_object] *)

Section Guards.
Context (action : string) (asset_path property_name : option string)
        (property_value : pyval) (property_type : option string)
        (index : option Z).

Local Abbreviation body :=
  (modify_scriptable_object action asset_path property_name
     property_value property_type index).

Lemma guard_asset_path :
  truthy asset_path = false →
  body = Return (failure "asset_path is required").
Proof. intros H. unfold modify_scriptable_object. by rewrite H. Qed.

Lemma guard_property_name :
  truthy asset_path = true → action ∈ property_actions →
  truthy property_name = false →
  body = Return (failure ("property_name is required for action '" ++ action ++ "'")).
Proof.
  intros Ha Hin Hn. unfold modify_scriptable_object.
  by rewrite Ha, (py_in_true _ _ Hin), Hn.
Qed.

Lemma guard_property_value :
  truthy asset_path = true →
  (action ∈ property_actions → truthy property_name = true) →
  action ∈ set_actions → property_value = PNone →
  body = Return (failure ("property_value is required for action '" ++ action ++ "'")).
Proof.
  intros Ha Hn Hin ->. unfold modify_scriptable_object.
  rewrite Ha, (py_in_true _ _ Hin). simpl.
  destruct (decide (action ∈ property_actions)) as [Hp|Hp].
  - by rewrite (Hn Hp), andb_false_r.
  - by rewrite (py_in_false _ _ Hp).
Qed.

Lemma guard_index :
  truthy asset_path = true →
  (action ∈ property_actions → truthy property_name = true) →
  (action ∈ set_actions → property_value ≠ PNone) →
  action ∈ array_element_actions → index = None →
  body = Return (failure ("index is required for action '" ++ action ++ "'")).
Proof.
  intros Ha Hn Hv Hin ->. unfold modify_scriptable_object.
  rewrite Ha, (py_in_true _ _ Hin). simpl.
  destruct (decide (action ∈ property_actions)) as [Hp|Hp];
    [rewrite (Hn Hp), andb_false_r | rewrite (py_in_false _ _ Hp)]; simpl;
    (destruct (decide (action ∈ set_actions)) as [Hs|Hs];
     [rewrite (is_None_false _ (Hv Hs)), andb_false_r
     | rewrite (py_in_false _ _ Hs)]); done.
Qed.

(** When no guard fires the body is the single forwarded command. *)
Lemma guards_pass :
  modify_checks_pass action asset_path property_name property_value index →
  body =
    SendCommand "HandleModifyScriptableObject"
      (set_if_not_None "index" (of_opt_int index)
        (set_if_not_None "property_type" (of_opt_str property_type)
          (set_if_not_None "property_value" property_value
            (set_if_not_None "property_name" (of_opt_str property_name)
              {[ "action" := PStr (lower action);
                 "asset_path" := of_opt_str asset_path ]}))))
      (λ result, Return result).
Proof.
  intros (Ha & Hn & Hv & Hi). unfold modify_scriptable_object.
  rewrite Ha. simpl.
  destruct (decide (action ∈ property_actions)) as [Hp|Hp];
    [rewrite (Hn Hp), andb_false_r | rewrite (py_in_false _ _ Hp)]; simpl;
    (destruct (decide (action ∈ set_actions)) as [Hs|Hs];
     [rewrite (is_None_false _ (Hv Hs)), andb_false_r
     | rewrite (py_in_false _ _ Hs)]); simpl;
    (destruct (decide (action ∈ array_element_actions)) as [Hx|Hx];
     [destruct index; [|by destruct (Hi Hx)]; rewrite andb_false_r
     | rewrite (py_in_false _ _ Hx)]); done.
Qed.

(** A body that is not the forwarded command is one of the four local
    failures, so the guards are exactly what decides the forwarding. *)
Lemma guards_decide :
  modify_checks_pass action asset_path property_name property_value index
  ∨ ∃ msg, body = Return (failure msg).
Proof.
  destruct (truthy asset_path) eqn:Ha;
    [|right; eexists; by apply guard_asset_path].
  destruct (decide (action ∈ property_actions
                    ∧ truthy property_name = false)) as [[Hp Hn]|Hn].
  { right. eexists. by apply guard_property_name. }
  assert (action ∈ property_actions → truthy property_name = true) as Hn'.
  { intros Hp. destruct (truthy property_name); [done|]. by destruct Hn. }
  assert ((action ∈ set_actions ∧ property_value = PNone)
          ∨ (action ∈ set_actions → property_value ≠ PNone)) as [[Hs Hv]|Hv'].
  { destruct (decide (action ∈ set_actions)); [|by right].
    destruct property_value; first (by left); by right. }
  { right. eexists. by apply guard_property_value. }
  destruct (decide (action ∈ array_element_actions ∧ index = None))
    as [[Hx Hi]|Hi].
  { right. eexists. by apply guard_index. }
  left. repeat split; [done..|]. naive_solver.
Qed.
End Guards.

(** The docstring's action list, less the two whole-object reads, is the
    list the [property_name] guard consults. *)
Lemma property_actions_spec action :
  action ∈ property_actions ↔
  action ∈ modify_actions ∧ action ≠ "get_properties" ∧ action ≠ "get_info".
Proof.
  unfold property_actions, modify_actions.
  rewrite !elem_of_cons, !elem_of_nil. split.
  - intros H. repeat destruct H as [->|H]; try done; (split; [tauto | done]).
  - intros (H & H1 & H2). repeat destruct H as [->|H]; try done; tauto.
Qed.

(** ** Family-global check: [asset_path] *)

(** C2: whatever the other arguments are, a call whose [asset_path] is
    [None] or the empty string returns exactly
    [{"success": False, "message": "asset_path is required", "data": None}]
    and the connection receives no command; no other check is consulted
    before it. *)
Theorem C2_asset_path_required
    (send : string → gmap string pyval → outcome)
    (action : string) (asset_path property_name : option string)
    (property_value : pyval) (property_type : option string) (index : option Z) :
  asset_path = None ∨ asset_path = Some "" →
  run send (modify_scriptable_object action asset_path property_name
              property_value property_type index)
  = (Returns (PDict {[ "success" := PBool false;
                       "message" := PStr "asset_path is required";
                       "data" := PNone ]}), []).
Proof.
  intros H. rewrite guard_asset_path; [done|]. by destruct H as [-> | ->].
Qed.

(** ** Action-specific check: [property_name] *)

(** C1 (amended): for every action of the family other than
    [get_properties] and [get_info], a call with a non-empty [asset_path]
    and no [property_name] returns exactly
    [{"success": False, "message": "property_name is required for action '<action>'", "data": None}]
    and the connection receives no command. *)
Theorem C1_property_name_required
    (send : string → gmap string pyval → outcome)
    (action : string) (asset_path : option string)
    (property_value : pyval) (property_type : option string) (index : option Z) :
  action ∈ modify_actions → action ≠ "get_properties" → action ≠ "get_info" →
  truthy asset_path = true →
  run send (modify_scriptable_object action asset_path None
              property_value property_type index)
  = (Returns (PDict {[ "success" := PBool false;
                       "message" := PStr ("property_name is required for action '"
                                          ++ action ++ "'");
                       "data" := PNone ]}), []).
Proof.
  intros Hin H1 H2 Ha.
  rewrite guard_property_name; [done..| |done].
  by apply property_actions_spec.
Qed.

(** ** The forwarded command *)

(** C3: [set_property] of ["speed"] to [5] on ["Assets/Data/X.asset"], with
    no [property_type] and no [index], passes every check; the connection
    receives the one command ["HandleModifyScriptableObject"] whose
    parameters are the four keys [action], [asset_path], [property_name]
    and [property_value] with these values, and neither [index] nor
    [property_type]. *)
Theorem C3_set_property_speed (send : string → gmap string pyval → outcome) :
  let ps : gmap string pyval :=
    {[ "action" := PStr "set_property";
       "asset_path" := PStr "Assets/Data/X.asset";
       "property_name" := PStr "speed";
       "property_value" := PInt 5 ]} in
  modify_checks_pass "set_property" (Some "Assets/Data/X.asset")
    (Some "speed") (PInt 5) None
  ∧ run send (modify_scriptable_object "set_property"
                (Some "Assets/Data/X.asset") (Some "speed") (PInt 5) None None)
    = (send "HandleModifyScriptableObject" ps,
       [Call "HandleModifyScriptableObject" ps])
  ∧ dom ps = {[ "action"; "asset_path"; "property_name"; "property_value" ]}
  ∧ ps !! "index" = None ∧ ps !! "property_type" = None.
Proof.
  intros ps.
  assert (modify_checks_pass "set_property" (Some "Assets/Data/X.asset")
            (Some "speed") (PInt 5) None) as Hpass.
  { do 3 (split; [done|]). intros H. apply list_elem_of_In in H. simpl in H. by destruct H as [|[|[]]]. }
  split; [done|]. split.
  - rewrite (guards_pass _ _ _ _ None _ Hpass), run_forward.
    assert (set_if_not_None "index" (of_opt_int None)
              (set_if_not_None "property_type" (of_opt_str None)
                (set_if_not_None "property_value" (PInt 5)
                  (set_if_not_None "property_name" (of_opt_str (Some "speed"))
                    {[ "action" := PStr (lower "set_property");
                       "asset_path" := of_opt_str (Some "Assets/Data/X.asset") ]})))
            = ps) as ->; [|done].
    unfold ps, set_if_not_None; cbn [of_opt_int of_opt_str is_None].
    change (lower "set_property") with "set_property".
    apply map_eq; intros k.
    at_key k "action". at_key k "asset_path". at_key k "property_name".
    at_key k "property_value". by simplify_map_eq.
  - unfold ps. rewrite !dom_insert_L, dom_singleton_L.
    split; [set_solver|]. split; by simplify_map_eq.
Qed.

(** ** The parameter dictionary *)

Lemma lookup_set_if_not_None_here key v (d : gmap string pyval) :
  d !! key = None →
  set_if_not_None key v d !! key = if is_None v then None else Some v.
Proof.
  intros H. unfold set_if_not_None.
  destruct (is_None v); [done|]. apply lookup_insert_eq.
Qed.

Lemma is_None_of_opt_str o :
  (if is_None (of_opt_str o) then None else Some (of_opt_str o)) = PStr <$> o.
Proof. by destruct o. Qed.

Lemma is_None_of_opt_int o :
  (if is_None (of_opt_int o) then None else Some (of_opt_int o)) = PInt <$> o.
Proof. by destruct o. Qed.

Lemma dom_set_if_not_None key v (d : gmap string pyval) (X : gset string) :
  key ∈ X → dom d ⊆ X → dom (set_if_not_None key v d) ⊆ X.
Proof.
  intros Hk Hd. unfold set_if_not_None. destruct (is_None v); [done|].
  rewrite dom_insert_L. set_solver.
Qed.

(** Looking a key up through the guarded assignments to other keys. *)
Ltac skip_keys := rewrite ?lookup_set_if_not_None_ne by done.

(** What [modify_scriptable_object] forwards when no guard fires: one
    command, whose parameters hold the lower-cased action, the asset path
    and each optional argument that is not [None], and nothing else. *)
Lemma modify_forwards send action asset_path property_name property_value
    property_type index :
  modify_checks_pass action asset_path property_name property_value index →
  ∃ ps : gmap string pyval,
    run send (modify_scriptable_object action asset_path property_name
                property_value property_type index)
    = (send "HandleModifyScriptableObject" ps,
       [Call "HandleModifyScriptableObject" ps])
    ∧ ps !! "action" = Some (PStr (lower action))
    ∧ ps !! "asset_path" = PStr <$> asset_path
    ∧ ps !! "property_name" = PStr <$> property_name
    ∧ ps !! "property_value"
      = (if is_None property_value then None else Some property_value)
    ∧ ps !! "property_type" = PStr <$> property_type
    ∧ ps !! "index" = PInt <$> index
    ∧ dom ps ⊆ {[ "action"; "asset_path"; "property_name"; "property_value";
                  "property_type"; "index" ]}.
Proof.
  intros Hpass. rewrite (guards_pass _ _ _ _ property_type _ Hpass), run_forward.
  eexists. split; [reflexivity|].
  destruct Hpass as ((ap & -> & _)%truthy_Some_inv & _).
  repeat split.
  - skip_keys. apply lookup_insert_eq.
  - skip_keys. by simplify_map_eq.
  - skip_keys. rewrite lookup_set_if_not_None_here by by simplify_map_eq.
    apply is_None_of_opt_str.
  - skip_keys. apply lookup_set_if_not_None_here.
    skip_keys. by simplify_map_eq.
  - skip_keys. rewrite lookup_set_if_not_None_here.
    + apply is_None_of_opt_str.
    + skip_keys. by simplify_map_eq.
  - rewrite lookup_set_if_not_None_here.
    + apply is_None_of_opt_int.
    + skip_keys. by simplify_map_eq.
  - repeat (apply dom_set_if_not_None; [set_solver|]).
    rewrite dom_insert_L, dom_singleton_L. set_solver.
Qed.

(** A run of [modify_scriptable_object] is a local failure that reaches no
    connection, or the single forwarded command. *)
Lemma modify_run_cases send action asset_path property_name property_value
    property_type index :
  (∃ msg, run send (modify_scriptable_object action asset_path property_name
                      property_value property_type index)
          = (Returns (failure msg), []))
  ∨ (modify_checks_pass action asset_path property_name property_value index
     ∧ ∃ ps, run send (modify_scriptable_object action asset_path
                         property_name property_value property_type index)
             = (send "HandleModifyScriptableObject" ps,
                [Call "HandleModifyScriptableObject" ps])).
Proof.
  destruct (guards_decide action asset_path property_name property_value
              property_type index) as [Hpass|[msg E]].
  - right. split; [done|].
    destruct (modify_forwards send _ _ _ _ property_type _ Hpass) as (ps & E & _).
    by exists ps.
  - left. exists msg. by rewrite E.
Qed.

(** What [create_scriptable_object] forwards, always: one command, whose
    parameters hold the lower-cased action and each optional argument that
    is not [None], and nothing else. *)
Lemma create_forwards send action name subfolder type_name path :
  ∃ ps : gmap string pyval,
    run send (create_scriptable_object action name subfolder type_name path)
    = (send "HandleCreateScriptableObject" ps,
       [Call "HandleCreateScriptableObject" ps])
    ∧ ps !! "action" = Some (PStr (lower action))
    ∧ ps !! "name" = PStr <$> name
    ∧ ps !! "subfolder" = PStr <$> subfolder
    ∧ ps !! "type_name" = PStr <$> type_name
    ∧ ps !! "path" = PStr <$> path
    ∧ dom ps ⊆ {[ "action"; "name"; "subfolder"; "type_name"; "path" ]}.
Proof.
  unfold create_scriptable_object. rewrite run_forward.
  eexists. split; [reflexivity|]. repeat split.
  - skip_keys. apply lookup_singleton_eq.
  - skip_keys. rewrite lookup_set_if_not_None_here by by simplify_map_eq.
    apply is_None_of_opt_str.
  - skip_keys. rewrite lookup_set_if_not_None_here.
    + apply is_None_of_opt_str.
    + skip_keys. by simplify_map_eq.
  - skip_keys. rewrite lookup_set_if_not_None_here.
    + apply is_None_of_opt_str.
    + skip_keys. by simplify_map_eq.
  - rewrite lookup_set_if_not_None_here.
    + apply is_None_of_opt_str.
    + skip_keys. by simplify_map_eq.
  - repeat (apply dom_set_if_not_None; [set_solver|]).
    rewrite dom_singleton_L. set_solver.
Qed.

(** ** Letter case of the action *)

(** The action is transmitted lower-cased, by both tools. *)
Lemma transmitted_action_lower send action asset_path property_name
    property_value property_type index name subfolder type_name path c :
  c ∈ ((run send (modify_scriptable_object action asset_path property_name
                    property_value property_type index)).2
       ++ (run send (create_scriptable_object action name subfolder
                       type_name path)).2)%list →
  params c !! "action" = Some (PStr (lower action)).
Proof.
  destruct (create_forwards send action name subfolder type_name path)
    as (ps' & -> & Hact' & _).
  destruct (modify_run_cases send action asset_path property_name
              property_value property_type index) as [[msg ->]|[Hpass _]].
  - simpl. by intros ->%list_elem_of_singleton.
  - destruct (modify_forwards send _ _ _ _ property_type _ Hpass)
      as (ps & -> & Hact & _).
    simpl. rewrite !elem_of_cons, elem_of_nil. by intros [->|[->|[]]].
Qed.

(** C4, at ["Set_Property"] with no [property_name]: the guards compare the
    action as it was given, so none fires and the command is forwarded with
    the lower-cased action, whereas the lower-case form ["set_property"] of
    the same call is refused locally. The two are not validated alike. *)
Theorem C4_mixed_case_not_validated (send : string → gmap string pyval → outcome) :
  let ps : gmap string pyval :=
    {[ "action" := PStr "set_property";
       "asset_path" := PStr "Assets/Data/X.asset" ]} in
  lower "Set_Property" = "set_property"
  ∧ run send (modify_scriptable_object "Set_Property"
                (Some "Assets/Data/X.asset") None PNone None None)
    = (send "HandleModifyScriptableObject" ps,
       [Call "HandleModifyScriptableObject" ps])
  ∧ run send (modify_scriptable_object "set_property"
                (Some "Assets/Data/X.asset") None PNone None None)
    = (Returns (PDict {[ "success" := PBool false;
                         "message" := PStr "property_name is required for action 'set_property'";
                         "data" := PNone ]}), []).
Proof.
  intros ps. split; [done|]. split.
  - assert (modify_checks_pass "Set_Property" (Some "Assets/Data/X.asset")
              None PNone None) as Hpass.
    { split; [done|].
      repeat split; intros H; apply list_elem_of_In in H; simpl in H;
        repeat destruct H as [H|H]; done. }
    by rewrite (guards_pass _ _ _ _ None _ Hpass), run_forward.
  - rewrite guard_property_name; [done..| |done].
    apply list_elem_of_In. simpl. tauto.
Qed.

(** ** Action-specific checks: [property_value], then [index] *)

(** C5 (amended): once the [asset_path] and [property_name] checks have
    passed, the checks go on in the order [property_value], then [index],
    each with its own message and with no command sent:
    - a set action ([set_property], [add_array_element],
      [set_array_element]) without [property_value] returns
      ["property_value is required for action '<action>'"], whatever
      [index] is;
    - an array-element action ([remove_array_element],
      [set_array_element]) that passes the [property_value] check and has
      no [index] returns ["index is required for action '<action>'"];
    - [remove_array_element] of ["lines"] on ["A"] with no [index] returns
      ["index is required for action 'remove_array_element'"]. *)
Theorem C5_property_value_then_index
    (send : string → gmap string pyval → outcome)
    (action : string) (asset_path property_name : option string)
    (property_value : pyval) (property_type : option string) (index : option Z) :
  truthy asset_path = true →
  truthy property_name = true →
  (action ∈ set_actions → property_value = PNone →
   run send (modify_scriptable_object action asset_path property_name
               property_value property_type index)
   = (Returns (PDict {[ "success" := PBool false;
                        "message" := PStr ("property_value is required for action '"
                                           ++ action ++ "'");
                        "data" := PNone ]}), []))
  ∧ (action ∈ array_element_actions →
     (action ∈ set_actions → property_value ≠ PNone) →
     index = None →
     run send (modify_scriptable_object action asset_path property_name
                 property_value property_type index)
     = (Returns (PDict {[ "success" := PBool false;
                          "message" := PStr ("index is required for action '"
                                             ++ action ++ "'");
                          "data" := PNone ]}), []))
  ∧ run send (modify_scriptable_object "remove_array_element" (Some "A")
                (Some "lines") property_value property_type None)
    = (Returns (PDict {[ "success" := PBool false;
                         "message" := PStr "index is required for action 'remove_array_element'";
                         "data" := PNone ]}), []).
Proof.
  intros Ha Hn. split; [|split].
  - intros Hs Hv. by rewrite guard_property_value.
  - intros Hx Hv Hi. by rewrite guard_index.
  - rewrite guard_index; try done.
    + intros H. apply list_elem_of_In in H. simpl in H.
      repeat destruct H as [H|H]; done.
    + apply list_elem_of_In. simpl. tauto.
Qed.

(** ** Empty values *)

(** C6 (amended): an empty [property_name] is treated as a missing one:
    for every action that requires [property_name], a call with a non-empty
    [asset_path] and [property_name = ""] returns the same local failure,
    naming [property_name] and the action, as the call without
    [property_name], and no command is sent. [property_value] is missing
    only when it is [None]: for a set action whose other checks pass, the
    empty string as [property_value] is forwarded as the value. *)
Theorem C6_empty_fields
    (send : string → gmap string pyval → outcome)
    (action : string) (asset_path property_name : option string)
    (property_value : pyval) (property_type : option string) (index : option Z) :
  truthy asset_path = true →
  (action ∈ modify_actions → action ≠ "get_properties" → action ≠ "get_info" →
   run send (modify_scriptable_object action asset_path (Some "")
               property_value property_type index)
   = run send (modify_scriptable_object action asset_path None
                 property_value property_type index)
   ∧ run send (modify_scriptable_object action asset_path (Some "")
                 property_value property_type index)
     = (Returns (PDict {[ "success" := PBool false;
                          "message" := PStr ("property_name is required for action '"
                                             ++ action ++ "'");
                          "data" := PNone ]}), []))
  ∧ (action ∈ set_actions → truthy property_name = true →
     (action ∈ array_element_actions → index ≠ None) →
     ∃ ps : gmap string pyval,
       run send (modify_scriptable_object action asset_path property_name
                   (PStr "") property_type index)
       = (send "HandleModifyScriptableObject" ps,
          [Call "HandleModifyScriptableObject" ps])
       ∧ ps !! "property_value" = Some (PStr "")).
Proof.
  intros Ha. split.
  - intros Hin H1 H2.
    assert (action ∈ property_actions) as Hp by by apply property_actions_spec.
    by rewrite !guard_property_name.
  - intros Hs Hn Hi.
    destruct (modify_forwards send action asset_path property_name (PStr "")
                property_type index) as (ps & E & _ & _ & _ & Hv & _).
    { by repeat split. }
    by exists ps.
Qed.

(** ** [create_scriptable_object]: nothing is checked locally *)

(** C7 (amended): [create_custom] is not checked locally. A call without
    [type_name] or without [path] produces no failure of its own: the
    connection receives the single command ["HandleCreateScriptableObject"],
    whose parameters are the lower-cased action and each of [name],
    [subfolder], [type_name] and [path] that was supplied, with its value,
    and no key for an absent one; the outcome of that command is what the
    call returns. *)
Theorem C7_create_custom_not_checked
    (send : string → gmap string pyval → outcome)
    (name subfolder type_name path : option string) :
  type_name = None ∨ path = None →
  ∃ ps : gmap string pyval,
    run send (create_scriptable_object "create_custom" name subfolder
                type_name path)
    = (send "HandleCreateScriptableObject" ps,
       [Call "HandleCreateScriptableObject" ps])
    ∧ ps !! "action" = Some (PStr "create_custom")
    ∧ ps !! "name" = PStr <$> name
    ∧ ps !! "subfolder" = PStr <$> subfolder
    ∧ ps !! "type_name" = PStr <$> type_name
    ∧ ps !! "path" = PStr <$> path
    ∧ dom ps ⊆ {[ "action"; "name"; "subfolder"; "type_name"; "path" ]}
    ∧ (type_name = None → ps !! "type_name" = None)
    ∧ (path = None → ps !! "path" = None).
Proof.
  intros _.
  destruct (create_forwards send "create_custom" name subfolder type_name path)
    as (ps & E & Hact & Hn & Hs & Ht & Hp & Hd).
  exists ps. do 7 (split; [done|]). split.
  - intros ->. by rewrite Ht.
  - intros ->. by rewrite Hp.
Qed.

(** C8: a create action called without [name] is not refused locally.
    Whatever the action and the other arguments, the parameters are built
    from the lower-cased action and each of [subfolder], [type_name] and
    [path] that was supplied, without a [name] key and without a key for an
    absent argument; the connection receives the single command
    ["HandleCreateScriptableObject"] and its outcome is what the call
    returns. In particular [create_custom] with [type_name = "Foo"] and
    [path = "Assets/Foo.asset"] sends exactly the three keys [action],
    [type_name] and [path], with neither [name] nor [subfolder]. *)
Theorem C8_name_not_checked
    (send : string → gmap string pyval → outcome)
    (action : string) (subfolder type_name path : option string) :
  (∃ ps : gmap string pyval,
     run send (create_scriptable_object action None subfolder type_name path)
     = (send "HandleCreateScriptableObject" ps,
        [Call "HandleCreateScriptableObject" ps])
     ∧ ps !! "action" = Some (PStr (lower action))
     ∧ ps !! "name" = None
     ∧ ps !! "subfolder" = PStr <$> subfolder
     ∧ ps !! "type_name" = PStr <$> type_name
     ∧ ps !! "path" = PStr <$> path
     ∧ dom ps ⊆ {[ "action"; "subfolder"; "type_name"; "path" ]})
  ∧ run send (create_scriptable_object "create_custom" None None
                (Some "Foo") (Some "Assets/Foo.asset"))
    = (send "HandleCreateScriptableObject"
         {[ "action" := PStr "create_custom"; "type_name" := PStr "Foo";
            "path" := PStr "Assets/Foo.asset" ]},
       [Call "HandleCreateScriptableObject"
          {[ "action" := PStr "create_custom"; "type_name" := PStr "Foo";
             "path" := PStr "Assets/Foo.asset" ]}])
  ∧ dom ({[ "action" := PStr "create_custom"; "type_name" := PStr "Foo";
            "path" := PStr "Assets/Foo.asset" ]} : gmap string pyval)
    = {[ "action"; "type_name"; "path" ]}.
Proof.
  split; [|split].
  - destruct (create_forwards send action None subfolder type_name path)
      as (ps & E & Hact & Hname & Hs & Ht & Hp & Hd).
    exists ps. do 6 (split; [done|]).
    intros k Hk. pose proof (Hd k Hk) as Hk'.
    rewrite !elem_of_union, !elem_of_singleton in Hk'.
    rewrite !elem_of_union, !elem_of_singleton.
    destruct Hk' as [[[[->| ->]| ->]| ->]| ->]; try tauto.
    apply elem_of_dom in Hk. rewrite Hname in Hk. by destruct Hk.
  - unfold create_scriptable_object. rewrite run_forward.
    assert (set_if_not_None "path" (of_opt_str (Some "Assets/Foo.asset"))
              (set_if_not_None "type_name" (of_opt_str (Some "Foo"))
                (set_if_not_None "subfolder" (of_opt_str None)
                  (set_if_not_None "name" (of_opt_str None)
                    {[ "action" := PStr (lower "create_custom") ]})))
            = {[ "action" := PStr "create_custom"; "type_name" := PStr "Foo";
                 "path" := PStr "Assets/Foo.asset" ]}) as ->; [|done].
    unfold set_if_not_None; cbn [of_opt_str is_None].
    change (lower "create_custom") with "create_custom".
    apply map_eq; intros k.
    at_key k "action". at_key k "type_name". at_key k "path".
    by simplify_map_eq.
  - rewrite !dom_insert_L, dom_singleton_L. set_solver.
Qed.

(** ** The result of the connection is the result of the tool *)

(** C9: a call that passes the local checks returns exactly what the
    connection's [send_command] produced for the one command it was sent,
    be it a value or an exception; nothing is changed, wrapped or sent
    again. [create_scriptable_object] has no local check, so this holds for
    each of its calls. *)
Theorem C9_result_unchanged
    (send : string → gmap string pyval → outcome)
    (action : string) (asset_path property_name : option string)
    (property_value : pyval) (property_type : option string) (index : option Z)
    (name subfolder type_name path : option string) :
  (modify_checks_pass action asset_path property_name property_value index →
   ∃ ps : gmap string pyval,
     run send (modify_scriptable_object action asset_path property_name
                 property_value property_type index)
     = (send "HandleModifyScriptableObject" ps,
        [Call "HandleModifyScriptableObject" ps]))
  ∧ ((∃ msg, modify_scriptable_object action asset_path property_name
               property_value property_type index = Return (failure msg))
     ∨ modify_checks_pass action asset_path property_name property_value index)
  ∧ ∃ ps : gmap string pyval,
      run send (create_scriptable_object action name subfolder type_name path)
      = (send "HandleCreateScriptableObject" ps,
         [Call "HandleCreateScriptableObject" ps]).
Proof.
  split; [|split].
  - intros Hpass.
    destruct (modify_forwards send _ _ _ _ property_type _ Hpass) as (ps & E & _).
    by exists ps.
  - destruct (guards_decide action asset_path property_name property_value
                property_type index); [by right | by left].
  - destruct (create_forwards send action name subfolder type_name path)
      as (ps & E & _).
    by exists ps.
Qed.

(** ** Falsy values of [property_value] *)

(** C10: for a set action, [False] and [0] as [property_value] satisfy the
    [property_value] check, which tests for [None] only: the call is never
    the local ["property_value is required ..."] failure, every command it
    sends carries [property_value] with that value, and when the other
    checks pass the command is sent. *)
Theorem C10_falsy_property_value
    (send : string → gmap string pyval → outcome)
    (action : string) (asset_path property_name : option string)
    (property_value : pyval) (property_type : option string) (index : option Z) :
  action ∈ set_actions →
  property_value = PBool false ∨ property_value = PInt 0 →
  modify_scriptable_object action asset_path property_name property_value
    property_type index
  ≠ Return (failure ("property_value is required for action '" ++ action ++ "'"))
  ∧ (∀ c, c ∈ (run send (modify_scriptable_object action asset_path
                           property_name property_value property_type index)).2 →
          params c !! "property_value" = Some property_value)
  ∧ (truthy asset_path = true → truthy property_name = true →
     (action ∈ array_element_actions → index ≠ None) →
     ∃ ps : gmap string pyval,
       run send (modify_scriptable_object action asset_path property_name
                   property_value property_type index)
       = (send "HandleModifyScriptableObject" ps,
          [Call "HandleModifyScriptableObject" ps])
       ∧ ps !! "property_value" = Some property_value).
Proof.
  intros Hs Hv.
  assert (is_None property_value = false) as Hnn
    by (destruct Hv as [-> | ->]; reflexivity).
  assert (property_value ≠ PNone) as Hne
    by (destruct Hv as [-> | ->]; discriminate).
  assert (∀ Hpass : modify_checks_pass action asset_path property_name
                      property_value index,
            ∃ ps : gmap string pyval,
              run send (modify_scriptable_object action asset_path
                          property_name property_value property_type index)
              = (send "HandleModifyScriptableObject" ps,
                 [Call "HandleModifyScriptableObject" ps])
              ∧ ps !! "property_value" = Some property_value) as Hfwd.
  { intros Hpass.
    destruct (modify_forwards send _ _ _ _ property_type _ Hpass)
      as (ps & E & _ & _ & _ & Hpv & _).
    exists ps. by rewrite Hpv, Hnn. }
  split; [|split].
  - destruct (guards_decide action asset_path property_name property_value
                property_type index) as [Hpass|[msg E]].
    + by rewrite (guards_pass _ _ _ _ property_type _ Hpass).
    + revert E. unfold modify_scriptable_object.
      rewrite Hnn, andb_false_r.
      destruct (negb (truthy asset_path)).
      { intros _ H. assert (H' := f_equal run_value H).
        apply failure_inj in H'. simpl in H'. discriminate. }
      destruct (py_in action property_actions && negb (truthy property_name)).
      { intros _ H. assert (H' := f_equal run_value H).
        apply failure_inj in H'. simpl in H'. discriminate. }
      destruct (py_in action array_element_actions && is_None (of_opt_int index));
        [|done].
      intros _ H. assert (H' := f_equal run_value H).
      apply failure_inj in H'. simpl in H'. discriminate.
  - intros c Hc.
    destruct (modify_run_cases send action asset_path property_name
                property_value property_type index) as [[msg E]|[Hpass _]].
    + rewrite E in Hc. simpl in Hc. by apply elem_of_nil in Hc.
    + destruct (Hfwd Hpass) as (ps & E & Hpv).
      rewrite E in Hc. simpl in Hc.
      by apply list_elem_of_singleton in Hc as ->.
  - intros Ha Hn Hi. apply Hfwd. by repeat split.
Qed.

(** * Further properties of the two tools *)

(** ** Helpers *)

Lemma set_actions_property action :
  action ∈ set_actions → action ∈ property_actions.
Proof.
  unfold set_actions, property_actions.
  rewrite !elem_of_cons, !elem_of_nil. intros H.
  repeat destruct H as [->|H]; try done; tauto.
Qed.

Lemma array_element_actions_property action :
  action ∈ array_element_actions → action ∈ property_actions.
Proof.
  unfold array_element_actions, property_actions.
  rewrite !elem_of_cons, !elem_of_nil. intros H.
  repeat destruct H as [->|H]; try done; tauto.
Qed.

Lemma is_None_true v : is_None v = true → v = PNone.
Proof. by destruct v. Qed.

Lemma supplied_value_inj v v' :
  (if is_None v then None else Some v) = (if is_None v' then None else Some v') →
  v = v'.
Proof.
  destruct (is_None v) eqn:E, (is_None v') eqn:E'; intros H; try done.
  - apply is_None_true in E, E'. congruence.
  - congruence.
Qed.

(** The commands a run of [modify_scriptable_object] hands to the
    connection: at most the one, and only when no guard fired. *)
Lemma modify_calls_inv send action asset_path property_name property_value
    property_type index c :
  c ∈ (run send (modify_scriptable_object action asset_path property_name
                   property_value property_type index)).2 →
  modify_checks_pass action asset_path property_name property_value index
  ∧ run send (modify_scriptable_object action asset_path property_name
                property_value property_type index)
    = (send "HandleModifyScriptableObject" (params c), [c])
  ∧ commandName c = "HandleModifyScriptableObject"
  ∧ params c !! "action" = Some (PStr (lower action))
  ∧ params c !! "asset_path" = PStr <$> asset_path
  ∧ params c !! "property_name" = PStr <$> property_name
  ∧ params c !! "property_value"
    = (if is_None property_value then None else Some property_value)
  ∧ params c !! "property_type" = PStr <$> property_type
  ∧ params c !! "index" = PInt <$> index
  ∧ dom (params c) ⊆ {[ "action"; "asset_path"; "property_name";
                        "property_value"; "property_type"; "index" ]}.
Proof.
  intros Hc.
  destruct (modify_run_cases send action asset_path property_name
              property_value property_type index) as [[msg E]|[Hpass _]].
  { rewrite E in Hc. by apply elem_of_nil in Hc. }
  destruct (modify_forwards send _ _ _ _ property_type _ Hpass)
    as (ps & E & H).
  rewrite E in Hc. simpl in Hc. apply list_elem_of_singleton in Hc as ->.
  split; [done|]. split; [done|]. split; [done|]. exact H.
Qed.

(** The same for [create_scriptable_object]. *)
Lemma create_calls_inv send action name subfolder type_name path c :
  c ∈ (run send (create_scriptable_object action name subfolder type_name
                   path)).2 →
  run send (create_scriptable_object action name subfolder type_name path)
  = (send "HandleCreateScriptableObject" (params c), [c])
  ∧ commandName c = "HandleCreateScriptableObject"
  ∧ params c !! "action" = Some (PStr (lower action))
  ∧ params c !! "name" = PStr <$> name
  ∧ params c !! "subfolder" = PStr <$> subfolder
  ∧ params c !! "type_name" = PStr <$> type_name
  ∧ params c !! "path" = PStr <$> path
  ∧ dom (params c) ⊆ {[ "action"; "name"; "subfolder"; "type_name"; "path" ]}.
Proof.
  intros Hc.
  destruct (create_forwards send action name subfolder type_name path)
    as (ps & E & H).
  rewrite E in Hc. simpl in Hc. apply list_elem_of_singleton in Hc as ->.
  split; [done|]. split; [done|]. exact H.
Qed.

(** Two concrete runs, used to instantiate the properties below. *)
Lemma get_info_run send :
  run send (modify_scriptable_object "get_info" (Some "Assets/Data/X.asset")
              None PNone None None)
  = (send "HandleModifyScriptableObject"
       {[ "action" := PStr "get_info";
          "asset_path" := PStr "Assets/Data/X.asset" ]},
     [Call "HandleModifyScriptableObject"
        {[ "action" := PStr "get_info";
           "asset_path" := PStr "Assets/Data/X.asset" ]}]).
Proof.
  assert (modify_checks_pass "get_info" (Some "Assets/Data/X.asset")
            None PNone None) as Hpass.
  { split; [done|].
    repeat split; intros H; apply list_elem_of_In in H; simpl in H;
      repeat destruct H as [H|H]; done. }
  by rewrite (guards_pass _ _ _ _ None _ Hpass), run_forward.
Qed.

Lemma list_types_run send :
  run send (create_scriptable_object "List_Types" None None None None)
  = (send "HandleCreateScriptableObject" {[ "action" := PStr "list_types" ]},
     [Call "HandleCreateScriptableObject" {[ "action" := PStr "list_types" ]}]).
Proof. unfold create_scriptable_object. by rewrite run_forward. Qed.

(** ** What the connection receives *)

(** X1: no command that either tool hands to the connection carries a
    [None]: every value stored in the parameters is a real value. *)
Theorem X1_no_None_sent
    (send : string → gmap string pyval → outcome)
    (action : string) (asset_path property_name : option string)
    (property_value : pyval) (property_type : option string) (index : option Z)
    (name subfolder type_name path : option string)
    (c : call) (k : string) (v : pyval) :
  c ∈ ((run send (modify_scriptable_object action asset_path property_name
                    property_value property_type index)).2
       ++ (run send (create_scriptable_object action name subfolder
                       type_name path)).2)%list →
  params c !! k = Some v →
  v ≠ PNone.
Proof.
  intros Hc Hk. pose proof (elem_of_dom_2 _ _ _ Hk) as Hd.
  apply elem_of_app in Hc as [Hc|Hc].
  - apply modify_calls_inv in Hc
      as (_ & _ & _ & Ha & Hp & Hn & Hv & Ht & Hi & Hsub).
    apply Hsub in Hd. rewrite !elem_of_union, !elem_of_singleton in Hd.
    destruct Hd as [[[[[->| ->]| ->]| ->]| ->]| ->].
    + rewrite Ha in Hk. by injection Hk as <-.
    + rewrite Hp in Hk. destruct asset_path; [|done]. by injection Hk as <-.
    + rewrite Hn in Hk. destruct property_name; [|done]. by injection Hk as <-.
    + rewrite Hv in Hk. destruct (is_None property_value) eqn:E; [done|].
      injection Hk as <-. by intros ->.
    + rewrite Ht in Hk. destruct property_type; [|done]. by injection Hk as <-.
    + rewrite Hi in Hk. destruct index; [|done]. by injection Hk as <-.
  - apply create_calls_inv in Hc as (_ & _ & Ha & Hn & Hs & Ht & Hp & Hsub).
    apply Hsub in Hd. rewrite !elem_of_union, !elem_of_singleton in Hd.
    destruct Hd as [[[[->| ->]| ->]| ->]| ->].
    + rewrite Ha in Hk. by injection Hk as <-.
    + rewrite Hn in Hk. destruct name; [|done]. by injection Hk as <-.
    + rewrite Hs in Hk. destruct subfolder; [|done]. by injection Hk as <-.
    + rewrite Ht in Hk. destruct type_name; [|done]. by injection Hk as <-.
    + rewrite Hp in Hk. destruct path; [|done]. by injection Hk as <-.
Qed.

(** X2: the parameters [modify_scriptable_object] sends are exactly its
    arguments: [action] lower-cased and the non-empty [asset_path] always,
    and each of [property_name], [property_value], [property_type] and
    [index] with its value unchanged if and only if it is not [None],
    whether or not the action uses it; no other key is ever sent. *)
Theorem X2_modify_params_exact
    (send : string → gmap string pyval → outcome)
    (action : string) (asset_path property_name : option string)
    (property_value : pyval) (property_type : option string) (index : option Z)
    (c : call) :
  c ∈ (run send (modify_scriptable_object action asset_path property_name
                   property_value property_type index)).2 →
  params c !! "action" = Some (PStr (lower action))
  ∧ (∃ s, asset_path = Some s ∧ s ≠ "" ∧ params c !! "asset_path" = Some (PStr s))
  ∧ params c !! "property_name" = PStr <$> property_name
  ∧ (property_value ≠ PNone → params c !! "property_value" = Some property_value)
  ∧ (property_value = PNone → params c !! "property_value" = None)
  ∧ params c !! "property_type" = PStr <$> property_type
  ∧ params c !! "index" = PInt <$> index
  ∧ ∀ k, k ∈ dom (params c) ↔
         k = "action" ∨ k = "asset_path"
         ∨ (k = "property_name" ∧ property_name ≠ None)
         ∨ (k = "property_value" ∧ property_value ≠ PNone)
         ∨ (k = "property_type" ∧ property_type ≠ None)
         ∨ (k = "index" ∧ index ≠ None).
Proof.
  intros Hc.
  apply modify_calls_inv in Hc
    as (((s & -> & Hs)%truthy_Some_inv & _) & _ & _ & Ha & Hp & Hn & Hv & Ht
        & Hi & Hsub).
  split; [done|]. split; [by exists s|]. split; [done|].
  split; [intros H; by rewrite Hv, is_None_false|].
  split; [intros ->; by rewrite Hv|]. split; [done|]. split; [done|].
  intros k. rewrite elem_of_dom. split.
  - intros Hk. pose proof Hk as Hd. apply elem_of_dom, Hsub in Hd.
    rewrite !elem_of_union, !elem_of_singleton in Hd.
    destruct Hd as [[[[[->| ->]| ->]| ->]| ->]| ->].
    + by left.
    + right; by left.
    + right; right; left. split; [done|]. intros ->. rewrite Hn in Hk.
      by destruct Hk.
    + right; right; right; left. split; [done|]. intros ->. rewrite Hv in Hk.
      by destruct Hk.
    + right; right; right; right; left. split; [done|]. intros ->.
      rewrite Ht in Hk. by destruct Hk.
    + right; right; right; right; right. split; [done|]. intros ->.
      rewrite Hi in Hk. by destruct Hk.
  - intros [->|[->|[[-> H]|[[-> H]|[[-> H]|[-> H]]]]]].
    + by rewrite Ha.
    + by rewrite Hp.
    + rewrite Hn. by destruct property_name.
    + rewrite Hv, is_None_false by done. done.
    + rewrite Ht. by destruct property_type.
    + rewrite Hi. by destruct index.
Qed.

(** X3: [create_scriptable_object] always sends one command whose
    parameters are exactly its arguments: [action] lower-cased, and each of
    [name], [subfolder], [type_name] and [path] with its value unchanged if
    and only if it is not [None]; an empty string is a value and is sent.
    No other key is ever sent. *)
Theorem X3_create_params_exact
    (send : string → gmap string pyval → outcome)
    (action : string) (name subfolder type_name path : option string) :
  ∃ ps : gmap string pyval,
    (run send (create_scriptable_object action name subfolder type_name
                 path)).2
    = [Call "HandleCreateScriptableObject" ps]
    ∧ ps !! "action" = Some (PStr (lower action))
    ∧ ps !! "name" = PStr <$> name
    ∧ ps !! "subfolder" = PStr <$> subfolder
    ∧ ps !! "type_name" = PStr <$> type_name
    ∧ ps !! "path" = PStr <$> path
    ∧ ∀ k, k ∈ dom ps ↔
           k = "action"
           ∨ (k = "name" ∧ name ≠ None)
           ∨ (k = "subfolder" ∧ subfolder ≠ None)
           ∨ (k = "type_name" ∧ type_name ≠ None)
           ∨ (k = "path" ∧ path ≠ None).
Proof.
  destruct (create_forwards send action name subfolder type_name path)
    as (ps & E & Ha & Hn & Hs & Ht & Hp & Hsub).
  exists ps. rewrite E. do 6 (split; [done|]).
  intros k. rewrite elem_of_dom. split.
  - intros Hk. pose proof Hk as Hd. apply elem_of_dom, Hsub in Hd.
    rewrite !elem_of_union, !elem_of_singleton in Hd.
    destruct Hd as [[[[->| ->]| ->]| ->]| ->].
    + by left.
    + right; left. split; [done|]. intros ->. rewrite Hn in Hk.
      by destruct Hk.
    + right; right; left. split; [done|]. intros ->. rewrite Hs in Hk.
      by destruct Hk.
    + right; right; right; left. split; [done|]. intros ->. rewrite Ht in Hk.
      by destruct Hk.
    + right; right; right; right. split; [done|]. intros ->. rewrite Hp in Hk.
      by destruct Hk.
  - intros [->|[[-> H]|[[-> H]|[[-> H]|[-> H]]]]].
    + by rewrite Ha.
    + rewrite Hn. by destruct name.
    + rewrite Hs. by destruct subfolder.
    + rewrite Ht. by destruct type_name.
    + rewrite Hp. by destruct path.
Qed.

(** X4: the parameters sent by [modify_scriptable_object] lose nothing but
    the letter case of the action: two calls whose commands carry the same
    parameters were given the same [asset_path], [property_name],
    [property_value], [property_type] and [index], and actions with the same
    lower-case form. *)
Theorem X4_modify_params_injective
    (send send' : string → gmap string pyval → outcome)
    (action action' : string)
    (asset_path asset_path' property_name property_name' : option string)
    (property_value property_value' : pyval)
    (property_type property_type' : option string) (index index' : option Z)
    (c c' : call) :
  c ∈ (run send (modify_scriptable_object action asset_path property_name
                   property_value property_type index)).2 →
  c' ∈ (run send' (modify_scriptable_object action' asset_path' property_name'
                     property_value' property_type' index')).2 →
  params c = params c' →
  lower action = lower action'
  ∧ asset_path = asset_path'
  ∧ property_name = property_name'
  ∧ property_value = property_value'
  ∧ property_type = property_type'
  ∧ index = index'.
Proof.
  intros Hc Hc' E.
  apply modify_calls_inv in Hc as (_ & _ & _ & Ha & Hp & Hn & Hv & Ht & Hi & _).
  apply modify_calls_inv in Hc'
    as (_ & _ & _ & Ha' & Hp' & Hn' & Hv' & Ht' & Hi' & _).
  rewrite E in Ha, Hp, Hn, Hv, Ht, Hi.
  rewrite Ha in Ha'. rewrite Hp in Hp'. rewrite Hn in Hn'. rewrite Hv in Hv'.
  rewrite Ht in Ht'. rewrite Hi in Hi'.
  repeat split.
  - congruence.
  - destruct asset_path, asset_path'; simpl in Hp'; congruence.
  - destruct property_name, property_name'; simpl in Hn'; congruence.
  - by apply supplied_value_inj.
  - destruct property_type, property_type'; simpl in Ht'; congruence.
  - destruct index, index'; simpl in Hi'; congruence.
Qed.

(** X5: likewise for [create_scriptable_object]: two calls that send the
    same parameters were given the same [name], [subfolder], [type_name]
    and [path], and actions with the same lower-case form. *)
Theorem X5_create_params_injective
    (send send' : string → gmap string pyval → outcome)
    (action action' : string)
    (name name' subfolder subfolder' type_name type_name' path path'
       : option string)
    (c c' : call) :
  c ∈ (run send (create_scriptable_object action name subfolder type_name
                   path)).2 →
  c' ∈ (run send' (create_scriptable_object action' name' subfolder'
                     type_name' path')).2 →
  params c = params c' →
  lower action = lower action'
  ∧ name = name' ∧ subfolder = subfolder'
  ∧ type_name = type_name' ∧ path = path'.
Proof.
  intros Hc Hc' E.
  apply create_calls_inv in Hc as (_ & _ & Ha & Hn & Hs & Ht & Hp & _).
  apply create_calls_inv in Hc' as (_ & _ & Ha' & Hn' & Hs' & Ht' & Hp' & _).
  rewrite E in Ha, Hn, Hs, Ht, Hp.
  rewrite Ha in Ha'. rewrite Hn in Hn'. rewrite Hs in Hs'. rewrite Ht in Ht'.
  rewrite Hp in Hp'.
  repeat split.
  - congruence.
  - destruct name, name'; simpl in Hn'; congruence.
  - destruct subfolder, subfolder'; simpl in Hs'; congruence.
  - destruct type_name, type_name'; simpl in Ht'; congruence.
  - destruct path, path'; simpl in Hp'; congruence.
Qed.

(** ** Letter case *)

Lemma is_upper_lower_ascii c : is_upper (lower_ascii c) = false.
Proof. by destruct c as [[] [] [] [] [] [] [] []]. Qed.

Lemma lower_ascii_fixed c : is_upper c = false → lower_ascii c = c.
Proof. unfold is_upper, lower_ascii. simpl. by intros ->. Qed.

Lemma is_ascii_char_lower_ascii c :
  is_ascii_char (lower_ascii c) = is_ascii_char c.
Proof. by destruct c as [[] [] [] [] [] [] [] []]. Qed.

Lemma has_upper_ascii_lower s : has_upper (ascii_lower s) = false.
Proof.
  induction s as [|c s IH]; [done|].
  simpl. by rewrite is_upper_lower_ascii, IH.
Qed.

Lemma ascii_lower_fixed s : has_upper s = false → ascii_lower s = s.
Proof.
  induction s as [|c s IH]; [done|].
  simpl. intros [Hc Hs]%orb_false_elim.
  by rewrite (lower_ascii_fixed _ Hc), (IH Hs).
Qed.

Lemma length_ascii_lower s : String.length (ascii_lower s) = String.length s.
Proof. induction s as [|c s IH]; [done|]. simpl. by rewrite IH. Qed.

Lemma is_ascii_ascii_lower s : is_ascii (ascii_lower s) = is_ascii s.
Proof.
  induction s as [|c s IH]; [done|].
  simpl. by rewrite is_ascii_char_lower_ascii, IH.
Qed.

(** On the ASCII range [str.lower] is the map of the capitals. *)
Lemma lower_of_ascii s : is_ascii s = true → lower s = ascii_lower s.
Proof. intros H. unfold lower. by rewrite H. Qed.

Lemma lower_idemp s : is_ascii s = true → lower (lower s) = lower s.
Proof.
  intros H. rewrite (lower_of_ascii s H).
  rewrite lower_of_ascii by by rewrite is_ascii_ascii_lower.
  apply ascii_lower_fixed, has_upper_ascii_lower.
Qed.

(** X6: for an action of the ASCII range, the action that reaches the
    connection, from either tool, never holds a capital: it is again of the
    ASCII range, of the same length, with each of [A]..[Z] replaced, and
    lower-casing it again changes nothing. *)
Theorem X6_sent_action_lower_case
    (send : string → gmap string pyval → outcome)
    (action : string) (asset_path property_name : option string)
    (property_value : pyval) (property_type : option string) (index : option Z)
    (name subfolder type_name path : option string) (c : call) :
  is_ascii action = true →
  c ∈ ((run send (modify_scriptable_object action asset_path property_name
                    property_value property_type index)).2
       ++ (run send (create_scriptable_object action name subfolder
                       type_name path)).2)%list →
  ∃ a : string,
    params c !! "action" = Some (PStr a)
    ∧ is_ascii a = true
    ∧ has_upper a = false
    ∧ String.length a = String.length action
    ∧ lower a = a
    ∧ (has_upper action = false → a = action).
Proof.
  intros Hascii Hc. exists (ascii_lower action).
  assert (is_ascii (ascii_lower action) = true) as Hascii'
    by by rewrite is_ascii_ascii_lower.
  split; [|split; [done|split; [apply has_upper_ascii_lower|
           split; [apply length_ascii_lower|split; [|apply ascii_lower_fixed]]]]].
  - rewrite <- (lower_of_ascii action Hascii).
    apply elem_of_app in Hc as [Hc|Hc].
    + by apply modify_calls_inv in Hc as (_ & _ & _ & Ha & _).
    + by apply create_calls_inv in Hc as (_ & _ & Ha & _).
  - rewrite (lower_of_ascii _ Hascii').
    apply ascii_lower_fixed, has_upper_ascii_lower.
Qed.

(** X7: [create_scriptable_object] does not see the letter case of its
    action: two actions that [str.lower] sends to the same string have the
    same run, and an action of the ASCII range has the run of its
    lower-cased form. *)
Theorem X7_create_ignores_case
    (send : string → gmap string pyval → outcome)
    (action action' : string) (name subfolder type_name path : option string) :
  (is_ascii action = true →
   run send (create_scriptable_object action name subfolder type_name path)
   = run send (create_scriptable_object (lower action) name subfolder
                 type_name path))
  ∧ (lower action = lower action' →
     run send (create_scriptable_object action name subfolder type_name path)
     = run send (create_scriptable_object action' name subfolder type_name
                   path)).
Proof.
  unfold create_scriptable_object. split.
  - intros H. by rewrite (lower_idemp _ H).
  - by intros ->.
Qed.

(** ** What [modify_scriptable_object] checks, and what it does not *)

(** X8: the action name itself is never checked. Any action outside the
    list of property actions ([get_properties], [get_info], but also a
    misspelt or mixed-case name) is forwarded as soon as [asset_path] is
    not empty, whatever the other arguments are. *)
Theorem X8_unlisted_action_forwarded
    (send : string → gmap string pyval → outcome)
    (action : string) (asset_path property_name : option string)
    (property_value : pyval) (property_type : option string) (index : option Z) :
  action ∉ property_actions →
  truthy asset_path = true →
  ∃ ps : gmap string pyval,
    run send (modify_scriptable_object action asset_path property_name
                property_value property_type index)
    = (send "HandleModifyScriptableObject" ps,
       [Call "HandleModifyScriptableObject" ps])
    ∧ ps !! "action" = Some (PStr (lower action)).
Proof.
  intros Hnot Ha.
  destruct (modify_forwards send action asset_path property_name
              property_value property_type index) as (ps & E & Hact & _).
  { split; [done|]. split; [done|]. split.
    - intros H. by apply set_actions_property in H.
    - intros H. by apply array_element_actions_property in H. }
  by exists ps.
Qed.

(** X9: a call that supplies everything is never refused locally: with a
    non-empty [asset_path], a non-empty [property_name], a [property_value]
    other than [None] and an [index], every action string is forwarded. *)
Theorem X9_full_call_forwarded
    (send : string → gmap string pyval → outcome)
    (action : string) (asset_path property_name : option string)
    (property_value : pyval) (property_type : option string) (z : Z) :
  truthy asset_path = true →
  truthy property_name = true →
  property_value ≠ PNone →
  ∃ ps : gmap string pyval,
    run send (modify_scriptable_object action asset_path property_name
                property_value property_type (Some z))
    = (send "HandleModifyScriptableObject" ps,
       [Call "HandleModifyScriptableObject" ps])
    ∧ ps !! "index" = Some (PInt z).
Proof.
  intros Ha Hn Hv.
  destruct (modify_forwards send action asset_path property_name
              property_value property_type (Some z))
    as (ps & E & _ & _ & _ & _ & _ & Hi & _).
  { by repeat split. }
  by exists ps.
Qed.

(** X10: the [index] check only asks for an [index]; its value is not
    looked at. For an array-element action that passes the earlier checks,
    every integer, zero and the negative ones included, is accepted and
    sent unchanged. *)
Theorem X10_any_index_accepted
    (send : string → gmap string pyval → outcome)
    (action : string) (asset_path property_name : option string)
    (property_value : pyval) (property_type : option string) (z : Z) :
  action ∈ array_element_actions →
  truthy asset_path = true →
  truthy property_name = true →
  (action ∈ set_actions → property_value ≠ PNone) →
  modify_scriptable_object action asset_path property_name property_value
    property_type (Some z)
  ≠ Return (failure ("index is required for action '" ++ action ++ "'"))
  ∧ ∃ ps : gmap string pyval,
      run send (modify_scriptable_object action asset_path property_name
                  property_value property_type (Some z))
      = (send "HandleModifyScriptableObject" ps,
         [Call "HandleModifyScriptableObject" ps])
      ∧ ps !! "index" = Some (PInt z).
Proof.
  intros Hx Ha Hn Hv.
  assert (modify_checks_pass action asset_path property_name property_value
            (Some z)) as Hpass by by repeat split.
  split.
  - by rewrite (guards_pass _ _ _ _ property_type _ Hpass).
  - destruct (modify_forwards send _ _ _ _ property_type _ Hpass)
      as (ps & E & _ & _ & _ & _ & _ & Hi & _).
    by exists ps.
Qed.

(** X11: a call that hands nothing to the connection was refused by one of
    the four guards. What it returns is the dictionary with [success]
    false, [data] [None] and one of four messages, which quotes the action
    as it was supplied; the same value comes back whatever the connection
    is and whatever [property_type] is. *)
Theorem X11_local_failure
    (send : string → gmap string pyval → outcome)
    (action : string) (asset_path property_name : option string)
    (property_value : pyval) (property_type : option string) (index : option Z) :
  (run send (modify_scriptable_object action asset_path property_name
               property_value property_type index)).2 = [] →
  ∃ msg : string,
    (msg = "asset_path is required"
     ∨ ∃ field, field ∈ ["property_name"; "property_value"; "index"]
                ∧ msg = field ++ " is required for action '" ++ action ++ "'")
    ∧ ∀ send' property_type',
        run send' (modify_scriptable_object action asset_path property_name
                     property_value property_type' index)
        = (Returns (PDict {[ "success" := PBool false;
                             "message" := PStr msg;
                             "data" := PNone ]}), []).
Proof.
  unfold modify_scriptable_object.
  destruct (negb (truthy asset_path)).
  { intros _. eexists. split; [by left|]. done. }
  destruct (py_in action property_actions && negb (truthy property_name)).
  { intros _. eexists. split; [|done].
    right. exists "property_name". split; [|done].
    apply list_elem_of_In. simpl. tauto. }
  destruct (py_in action set_actions && is_None property_value).
  { intros _. eexists. split; [|done].
    right. exists "property_value". split; [|done].
    apply list_elem_of_In. simpl. tauto. }
  destruct (py_in action array_element_actions && is_None (of_opt_int index)).
  { intros _. eexists. split; [|done].
    right. exists "index". split; [|done].
    apply list_elem_of_In. simpl. tauto. }
  rewrite run_forward. discriminate.
Qed.

(** X12: neither tool ever sends a second command, nor a command of the
    other family: [modify_scriptable_object] hands the connection at most
    one command, [create_scriptable_object] exactly one, and each uses its
    own command name, also when the connection raises. *)
Theorem X12_single_command
    (send : string → gmap string pyval → outcome)
    (action : string) (asset_path property_name : option string)
    (property_value : pyval) (property_type : option string) (index : option Z)
    (name subfolder type_name path : option string) :
  (length (run send (modify_scriptable_object action asset_path
                       property_name property_value property_type index)).2
   ≤ 1)%nat
  ∧ Forall (λ c, commandName c = "HandleModifyScriptableObject")
      (run send (modify_scriptable_object action asset_path property_name
                   property_value property_type index)).2
  ∧ length (run send (create_scriptable_object action name subfolder
                        type_name path)).2 = 1
  ∧ Forall (λ c, commandName c = "HandleCreateScriptableObject")
      (run send (create_scriptable_object action name subfolder type_name
                   path)).2.
Proof.
  destruct (create_forwards send action name subfolder type_name path)
    as (ps' & -> & _).
  destruct (modify_run_cases send action asset_path property_name
              property_value property_type index)
    as [[msg ->]|[_ [ps ->]]]; simpl.
  - repeat split; [lia | constructor | by repeat constructor].
  - repeat split; [lia | by repeat constructor | by repeat constructor].
Qed.

(** X13: the action names the two docstrings list are spelt without
    capitals, so a documented action reaches the connection exactly as it
    was supplied. *)
Theorem X13_documented_action_verbatim
    (send : string → gmap string pyval → outcome)
    (action : string) (asset_path property_name : option string)
    (property_value : pyval) (property_type : option string) (index : option Z)
    (name subfolder type_name path : option string) (c : call) :
  action ∈ (modify_actions ++ create_actions)%list →
  c ∈ ((run send (modify_scriptable_object action asset_path property_name
                    property_value property_type index)).2
       ++ (run send (create_scriptable_object action name subfolder
                       type_name path)).2)%list →
  params c !! "action" = Some (PStr action).
Proof.
  intros Hin Hc.
  assert (lower action = action) as Hl.
  { apply list_elem_of_In in Hin. simpl in Hin.
    repeat destruct Hin as [<-|Hin]; try reflexivity. contradiction. }
  apply elem_of_app in Hc as [Hc|Hc].
  - apply modify_calls_inv in Hc as (_ & _ & _ & Ha & _). by rewrite Ha, Hl.
  - apply create_calls_inv in Hc as (_ & _ & Ha & _). by rewrite Ha, Hl.
Qed.

End Tools.

(** * Concrete runs *)

Lemma C2_witness :
  (Some "" = None ∨ Some "" = Some "")
  ∧ run echo_send (modify_scriptable_object keep_non_ascii "set_array_element" (Some "")
                     None PNone None None)
    = (Returns (PDict {[ "success" := PBool false;
                         "message" := PStr "asset_path is required";
                         "data" := PNone ]}), []).
Proof.
  split; [right; reflexivity|].
  apply (C2_asset_path_required keep_non_ascii echo_send "set_array_element" (Some "")
           None PNone None None).
  right; reflexivity.
Defined.

(** C1, as stated, fails when [asset_path] is empty too: the [asset_path]
    guard comes first and its message is the one returned. *)
Lemma C1_counterexample :
  "get_property" ∈ modify_actions
  ∧ "get_property" ≠ "get_properties" ∧ "get_property" ≠ "get_info"
  ∧ run echo_send (modify_scriptable_object keep_non_ascii "get_property" (Some "")
                     None PNone None None)
    = (Returns (failure "asset_path is required"), [])
  ∧ run echo_send (modify_scriptable_object keep_non_ascii "get_property" (Some "")
                     None PNone None None)
    ≠ (Returns (PDict {[ "success" := PBool false;
                         "message" := PStr "property_name is required for action 'get_property'";
                         "data" := PNone ]}), []).
Proof.
  assert (run echo_send (modify_scriptable_object keep_non_ascii "get_property" (Some "")
                           None PNone None None)
          = (Returns (failure "asset_path is required"), [])) as E.
  { by rewrite guard_asset_path. }
  split; [apply list_elem_of_In; simpl; tauto|].
  do 2 (split; [done|]). split; [done|].
  rewrite E. intros H.
  assert (failure "asset_path is required"
          = failure "property_name is required for action 'get_property'") as H'
    by (unfold failure at 2; congruence).
  by apply failure_inj in H'.
Qed.

Lemma C1_witness :
  "list_array_elements" ∈ modify_actions
  ∧ truthy (Some "Assets/Data/X.asset") = true
  ∧ run echo_send (modify_scriptable_object keep_non_ascii "list_array_elements"
                     (Some "Assets/Data/X.asset") None PNone None None)
    = (Returns (PDict {[ "success" := PBool false;
                         "message" := PStr "property_name is required for action 'list_array_elements'";
                         "data" := PNone ]}), []).
Proof.
  assert ("list_array_elements" ∈ modify_actions) as Hin.
  { apply list_elem_of_In. simpl. tauto. }
  split; [exact Hin|]. split; [reflexivity|].
  apply (C1_property_name_required keep_non_ascii echo_send "list_array_elements"
           (Some "Assets/Data/X.asset") PNone None None);
    [exact Hin | discriminate | discriminate | reflexivity].
Defined.

(** C5, as stated, fails for a set action called without [property_name]
    and without [property_value]: the [property_name] guard comes before the
    [property_value] guard and its message is the one returned. *)
Lemma C5_counterexample :
  "set_property" ∈ set_actions
  ∧ run echo_send (modify_scriptable_object keep_non_ascii "set_property" (Some "A")
                     None PNone None None)
    = (Returns (failure "property_name is required for action 'set_property'"), [])
  ∧ run echo_send (modify_scriptable_object keep_non_ascii "set_property" (Some "A")
                     None PNone None None)
    ≠ (Returns (PDict {[ "success" := PBool false;
                         "message" := PStr "property_value is required for action 'set_property'";
                         "data" := PNone ]}), []).
Proof.
  assert (run echo_send (modify_scriptable_object keep_non_ascii "set_property" (Some "A")
                           None PNone None None)
          = (Returns (failure "property_name is required for action 'set_property'"), []))
    as E.
  { rewrite guard_property_name; [done..| |done].
    apply list_elem_of_In. simpl. tauto. }
  split; [apply list_elem_of_In; simpl; tauto|]. split; [done|].
  rewrite E. intros H.
  assert (failure "property_name is required for action 'set_property'"
          = failure "property_value is required for action 'set_property'") as H'
    by (unfold failure at 2; congruence).
  by apply failure_inj in H'.
Qed.

Lemma C5_witness :
  truthy (Some "Assets/Data/X.asset") = true
  ∧ truthy (Some "lines") = true
  ∧ run echo_send (modify_scriptable_object keep_non_ascii "set_array_element"
                     (Some "Assets/Data/X.asset") (Some "lines") PNone None None)
    = (Returns (PDict {[ "success" := PBool false;
                         "message" := PStr "property_value is required for action 'set_array_element'";
                         "data" := PNone ]}), [])
  ∧ run echo_send (modify_scriptable_object keep_non_ascii "set_array_element"
                     (Some "Assets/Data/X.asset") (Some "lines") (PInt 7) None None)
    = (Returns (PDict {[ "success" := PBool false;
                         "message" := PStr "index is required for action 'set_array_element'";
                         "data" := PNone ]}), []).
Proof.
  split; [reflexivity|]. split; [reflexivity|]. split.
  - apply (C5_property_value_then_index keep_non_ascii echo_send "set_array_element"
             (Some "Assets/Data/X.asset") (Some "lines") PNone None None);
      [reflexivity | reflexivity | | reflexivity].
    apply list_elem_of_In. simpl. tauto.
  - apply (C5_property_value_then_index keep_non_ascii echo_send "set_array_element"
             (Some "Assets/Data/X.asset") (Some "lines") (PInt 7) None None);
      [reflexivity | reflexivity | | discriminate | reflexivity].
    apply list_elem_of_In. simpl. tauto.
Defined.

(** C6, as stated, fails for [property_value]: the empty string is not
    [None], so [set_property] with [property_value = ""] passes the check
    and the command is forwarded with the empty string as the value. *)
Lemma C6_counterexample :
  run echo_send (modify_scriptable_object keep_non_ascii "set_property" (Some "A")
                   (Some "speed") (PStr "") None None)
  = (echo_send "HandleModifyScriptableObject"
       {[ "action" := PStr "set_property"; "asset_path" := PStr "A";
          "property_name" := PStr "speed"; "property_value" := PStr "" ]},
     [Call "HandleModifyScriptableObject"
        {[ "action" := PStr "set_property"; "asset_path" := PStr "A";
           "property_name" := PStr "speed"; "property_value" := PStr "" ]}])
  ∧ run echo_send (modify_scriptable_object keep_non_ascii "set_property" (Some "A")
                     (Some "speed") (PStr "") None None)
    ≠ (Returns (PDict {[ "success" := PBool false;
                         "message" := PStr "property_value is required for action 'set_property'";
                         "data" := PNone ]}), []).
Proof.
  assert (modify_checks_pass "set_property" (Some "A") (Some "speed")
            (PStr "") None) as Hpass.
  { do 3 (split; [done|]). intros H. apply list_elem_of_In in H. simpl in H.
    by destruct H as [|[|[]]]. }
  rewrite (guards_pass _ _ _ _ _ None _ Hpass), run_forward.
  assert (set_if_not_None "index" (of_opt_int None)
            (set_if_not_None "property_type" (of_opt_str None)
              (set_if_not_None "property_value" (PStr "")
                (set_if_not_None "property_name" (of_opt_str (Some "speed"))
                  {[ "action" := PStr (lower keep_non_ascii "set_property");
                     "asset_path" := of_opt_str (Some "A") ]})))
          = {[ "action" := PStr "set_property"; "asset_path" := PStr "A";
               "property_name" := PStr "speed";
               "property_value" := PStr "" ]}) as ->.
  { unfold set_if_not_None; cbn [of_opt_int of_opt_str is_None].
    change (lower keep_non_ascii "set_property") with "set_property".
    apply map_eq; intros k.
    at_key k "action". at_key k "asset_path". at_key k "property_name".
    at_key k "property_value". by simplify_map_eq. }
  split; [done|]. by intros [=].
Qed.

Lemma C6_witness :
  truthy (Some "Assets/Data/X.asset") = true
  ∧ run echo_send (modify_scriptable_object keep_non_ascii "get_property"
                     (Some "Assets/Data/X.asset") (Some "") PNone None None)
    = (Returns (PDict {[ "success" := PBool false;
                         "message" := PStr "property_name is required for action 'get_property'";
                         "data" := PNone ]}), [])
  ∧ ∃ ps : gmap string pyval,
      run echo_send (modify_scriptable_object keep_non_ascii "add_array_element"
                       (Some "Assets/Data/X.asset") (Some "lines") (PStr "")
                       None None)
      = (echo_send "HandleModifyScriptableObject" ps,
         [Call "HandleModifyScriptableObject" ps])
      ∧ ps !! "property_value" = Some (PStr "").
Proof.
  split; [reflexivity|]. split.
  - apply (C6_empty_fields keep_non_ascii echo_send "get_property"
             (Some "Assets/Data/X.asset") None PNone None None);
      [reflexivity | | discriminate | discriminate].
    apply list_elem_of_In. simpl. tauto.
  - apply (C6_empty_fields keep_non_ascii echo_send "add_array_element"
             (Some "Assets/Data/X.asset") (Some "lines") PNone None None);
      [reflexivity | | reflexivity | ].
    + apply list_elem_of_In. simpl. tauto.
    + intros H. apply list_elem_of_In in H. simpl in H.
      by destruct H as [|[|[]]].
Defined.

(** C7, as stated, fails: [create_custom] with a [name] but without
    [type_name] and without [path] is not refused locally; the connection
    receives the command, with the action and the name as its parameters,
    and its answer is returned. *)
Lemma C7_counterexample :
  run echo_send (create_scriptable_object keep_non_ascii "create_custom" (Some "Foo") None
                   None None)
  = (echo_send "HandleCreateScriptableObject"
       {[ "action" := PStr "create_custom"; "name" := PStr "Foo" ]},
     [Call "HandleCreateScriptableObject"
        {[ "action" := PStr "create_custom"; "name" := PStr "Foo" ]}])
  ∧ (run echo_send (create_scriptable_object keep_non_ascii "create_custom" (Some "Foo") None
                      None None)).2 ≠ []
  ∧ (run echo_send (create_scriptable_object keep_non_ascii "create_custom" (Some "Foo") None
                      None None)).1
    = Returns (PDict {[ "success" := PBool true;
                        "message" := PStr "HandleCreateScriptableObject";
                        "data" := PDict {[ "action" := PStr "create_custom";
                                           "name" := PStr "Foo" ]} ]}).
Proof.
  unfold create_scriptable_object. rewrite run_forward.
  assert (set_if_not_None "path" (of_opt_str None)
            (set_if_not_None "type_name" (of_opt_str None)
              (set_if_not_None "subfolder" (of_opt_str None)
                (set_if_not_None "name" (of_opt_str (Some "Foo"))
                  {[ "action" := PStr (lower keep_non_ascii "create_custom") ]})))
          = {[ "action" := PStr "create_custom"; "name" := PStr "Foo" ]}) as ->.
  { unfold set_if_not_None; cbn [of_opt_str is_None].
    change (lower keep_non_ascii "create_custom") with "create_custom".
    apply map_eq; intros k.
    at_key k "action". at_key k "name". by simplify_map_eq. }
  by repeat split.
Qed.

Lemma C7_witness :
  ((None : option string) = None ∨ Some "Assets/Foo.asset" = None)
  ∧ ∃ ps : gmap string pyval,
      run down_send (create_scriptable_object keep_non_ascii "create_custom"
                       (Some "Foo") None None (Some "Assets/Foo.asset"))
      = (down_send "HandleCreateScriptableObject" ps,
         [Call "HandleCreateScriptableObject" ps])
      ∧ ps !! "action" = Some (PStr "create_custom")
      ∧ ps !! "name" = PStr <$> Some "Foo"
      ∧ ps !! "subfolder" = PStr <$> None
      ∧ ps !! "type_name" = PStr <$> None
      ∧ ps !! "path" = PStr <$> Some "Assets/Foo.asset"
      ∧ dom ps ⊆ {[ "action"; "name"; "subfolder"; "type_name"; "path" ]}
      ∧ ((None : option string) = None → ps !! "type_name" = None)
      ∧ (Some "Assets/Foo.asset" = None → ps !! "path" = None).
Proof.
  split; [left; reflexivity|].
  apply (C7_create_custom_not_checked keep_non_ascii down_send (Some "Foo")
           None None (Some "Assets/Foo.asset")).
  left; reflexivity.
Defined.

Lemma C9_witness :
  modify_checks_pass "get_info" (Some "Assets/Data/X.asset") None PNone None
  ∧ (∃ ps : gmap string pyval,
       run down_send (modify_scriptable_object keep_non_ascii "get_info"
                        (Some "Assets/Data/X.asset") None PNone None None)
       = (down_send "HandleModifyScriptableObject" ps,
          [Call "HandleModifyScriptableObject" ps]))
  ∧ (∃ ps : gmap string pyval,
       run echo_send (modify_scriptable_object keep_non_ascii "get_info"
                        (Some "Assets/Data/X.asset") None PNone None None)
       = (echo_send "HandleModifyScriptableObject" ps,
          [Call "HandleModifyScriptableObject" ps])).
Proof.
  assert (modify_checks_pass "get_info" (Some "Assets/Data/X.asset") None
            PNone None) as Hpass.
  { split; [reflexivity|].
    repeat split; intros H; apply list_elem_of_In in H; simpl in H;
      repeat destruct H as [H|H]; discriminate || contradiction. }
  split; [exact Hpass|]. split.
  - exact (proj1 (C9_result_unchanged keep_non_ascii down_send "get_info"
                    (Some "Assets/Data/X.asset") None PNone None None
                    None None None None) Hpass).
  - exact (proj1 (C9_result_unchanged keep_non_ascii echo_send "get_info"
                    (Some "Assets/Data/X.asset") None PNone None None
                    None None None None) Hpass).
Defined.

Lemma C10_witness :
  "set_array_element" ∈ set_actions
  ∧ (PBool false = PBool false ∨ PBool false = PInt 0)
  ∧ ∃ ps : gmap string pyval,
      run echo_send (modify_scriptable_object keep_non_ascii "set_array_element"
                       (Some "Assets/Data/X.asset") (Some "flags")
                       (PBool false) None (Some 0%Z))
      = (echo_send "HandleModifyScriptableObject" ps,
         [Call "HandleModifyScriptableObject" ps])
      ∧ ps !! "property_value" = Some (PBool false).
Proof.
  assert ("set_array_element" ∈ set_actions) as Hs.
  { apply list_elem_of_In. simpl. tauto. }
  split; [exact Hs|]. split; [left; reflexivity|].
  apply (C10_falsy_property_value keep_non_ascii echo_send "set_array_element"
           (Some "Assets/Data/X.asset") (Some "flags") (PBool false) None
           (Some 0%Z) Hs (or_introl eq_refl));
    [reflexivity | reflexivity | discriminate].
Defined.

Lemma X1_witness :
  Call "HandleCreateScriptableObject" {[ "action" := PStr "list_types" ]}
  ∈ ((run echo_send (modify_scriptable_object keep_non_ascii "List_Types" None None PNone
                       None None)).2
     ++ (run echo_send (create_scriptable_object keep_non_ascii "List_Types" None None None
                          None)).2)%list
  ∧ params (Call "HandleCreateScriptableObject"
              {[ "action" := PStr "list_types" ]}) !! "action"
    = Some (PStr "list_types")
  ∧ PStr "list_types" ≠ PNone.
Proof.
  assert (Call "HandleCreateScriptableObject" {[ "action" := PStr "list_types" ]}
          ∈ ((run echo_send (modify_scriptable_object keep_non_ascii "List_Types" None None
                               PNone None None)).2
             ++ (run echo_send (create_scriptable_object keep_non_ascii "List_Types" None
                                  None None None)).2)%list) as Hc.
  { rewrite list_types_run. apply elem_of_app. right. apply list_elem_of_here. }
  assert (params (Call "HandleCreateScriptableObject"
                    {[ "action" := PStr "list_types" ]}) !! "action"
          = Some (PStr "list_types")) as Hk.
  { apply lookup_singleton_eq. }
  split; [exact Hc|]. split; [exact Hk|].
  exact (X1_no_None_sent keep_non_ascii echo_send "List_Types" None None PNone None None
           None None None None _ "action" (PStr "list_types") Hc Hk).
Defined.

Lemma X2_witness :
  Call "HandleModifyScriptableObject"
    {[ "action" := PStr "get_info"; "asset_path" := PStr "Assets/Data/X.asset" ]}
  ∈ (run echo_send (modify_scriptable_object keep_non_ascii "get_info"
                      (Some "Assets/Data/X.asset") None PNone None None)).2
  ∧ ∀ k, k ∈ dom (params (Call "HandleModifyScriptableObject"
                            {[ "action" := PStr "get_info";
                               "asset_path" := PStr "Assets/Data/X.asset" ]})) ↔
         k = "action" ∨ k = "asset_path"
         ∨ (k = "property_name" ∧ (None : option string) ≠ None)
         ∨ (k = "property_value" ∧ PNone ≠ PNone)
         ∨ (k = "property_type" ∧ (None : option string) ≠ None)
         ∨ (k = "index" ∧ (None : option Z) ≠ None).
Proof.
  assert (Call "HandleModifyScriptableObject"
            {[ "action" := PStr "get_info";
               "asset_path" := PStr "Assets/Data/X.asset" ]}
          ∈ (run echo_send (modify_scriptable_object keep_non_ascii "get_info"
                              (Some "Assets/Data/X.asset") None PNone None
                              None)).2) as Hc.
  { rewrite get_info_run. apply list_elem_of_here. }
  split; [exact Hc|].
  apply (X2_modify_params_exact keep_non_ascii echo_send "get_info"
           (Some "Assets/Data/X.asset") None PNone None None _ Hc).
Defined.

Lemma X4_witness :
  Call "HandleModifyScriptableObject"
    {[ "action" := PStr "get_info"; "asset_path" := PStr "Assets/Data/X.asset" ]}
  ∈ (run echo_send (modify_scriptable_object keep_non_ascii "get_info"
                      (Some "Assets/Data/X.asset") None PNone None None)).2
  ∧ Call "HandleModifyScriptableObject"
      {[ "action" := PStr "get_info"; "asset_path" := PStr "Assets/Data/X.asset" ]}
    ∈ (run down_send (modify_scriptable_object keep_non_ascii "get_info"
                        (Some "Assets/Data/X.asset") None PNone None None)).2
  ∧ lower keep_non_ascii "get_info" = lower keep_non_ascii "get_info"
  ∧ Some "Assets/Data/X.asset" = Some "Assets/Data/X.asset".
Proof.
  assert (∀ send,
            Call "HandleModifyScriptableObject"
              {[ "action" := PStr "get_info";
                 "asset_path" := PStr "Assets/Data/X.asset" ]}
            ∈ (run send (modify_scriptable_object keep_non_ascii "get_info"
                           (Some "Assets/Data/X.asset") None PNone None
                           None)).2) as Hc.
  { intros send. rewrite get_info_run. apply list_elem_of_here. }
  split; [exact (Hc echo_send)|]. split; [exact (Hc down_send)|].
  destruct (X4_modify_params_injective keep_non_ascii echo_send down_send
              "get_info" "get_info"
              (Some "Assets/Data/X.asset") (Some "Assets/Data/X.asset")
              None None PNone PNone None None None None _ _
              (Hc echo_send) (Hc down_send) eq_refl) as (H1 & H2 & _).
  split; [exact H1 | exact H2].
Defined.

Lemma X5_witness :
  Call "HandleCreateScriptableObject" {[ "action" := PStr "list_types" ]}
  ∈ (run echo_send (create_scriptable_object keep_non_ascii "List_Types" None None None
                      None)).2
  ∧ Call "HandleCreateScriptableObject" {[ "action" := PStr "list_types" ]}
    ∈ (run down_send (create_scriptable_object keep_non_ascii "list_types" None None None
                        None)).2
  ∧ lower keep_non_ascii "List_Types" = lower keep_non_ascii "list_types"
  ∧ (None : option string) = None.
Proof.
  assert (Call "HandleCreateScriptableObject"
            {[ "action" := PStr "list_types" ]}
          ∈ (run echo_send (create_scriptable_object keep_non_ascii "List_Types" None None
                              None None)).2) as Hc.
  { rewrite list_types_run. apply list_elem_of_here. }
  assert (Call "HandleCreateScriptableObject"
            {[ "action" := PStr "list_types" ]}
          ∈ (run down_send (create_scriptable_object keep_non_ascii "list_types" None None
                              None None)).2) as Hc'.
  { unfold create_scriptable_object. rewrite run_forward.
    apply list_elem_of_here. }
  split; [exact Hc|]. split; [exact Hc'|].
  destruct (X5_create_params_injective keep_non_ascii echo_send down_send
              "List_Types" "list_types" None None None None None None None
              None _ _ Hc Hc' eq_refl) as (H1 & H2 & _).
  split; [exact H1 | exact H2].
Defined.

Lemma X6_witness :
  is_ascii "List_Types" = true
  ∧ Call "HandleCreateScriptableObject" {[ "action" := PStr "list_types" ]}
    ∈ ((run echo_send (modify_scriptable_object keep_non_ascii "List_Types"
                         None None PNone None None)).2
       ++ (run echo_send (create_scriptable_object keep_non_ascii "List_Types"
                            None None None None)).2)%list
  ∧ ∃ a : string,
      params (Call "HandleCreateScriptableObject"
                {[ "action" := PStr "list_types" ]}) !! "action"
      = Some (PStr a)
      ∧ is_ascii a = true
      ∧ has_upper a = false
      ∧ String.length a = String.length "List_Types"
      ∧ lower keep_non_ascii a = a
      ∧ (has_upper "List_Types" = false → a = "List_Types").
Proof.
  assert (Call "HandleCreateScriptableObject" {[ "action" := PStr "list_types" ]}
          ∈ ((run echo_send (modify_scriptable_object keep_non_ascii
                               "List_Types" None None PNone None None)).2
             ++ (run echo_send (create_scriptable_object keep_non_ascii
                                  "List_Types" None None None None)).2)%list)
    as Hc.
  { rewrite list_types_run. apply elem_of_app. right. apply list_elem_of_here. }
  split; [reflexivity|]. split; [exact Hc|].
  exact (X6_sent_action_lower_case keep_non_ascii echo_send "List_Types" None
           None PNone None None None None None None _ eq_refl Hc).
Defined.

Lemma X7_witness :
  is_ascii "Create_Custom" = true
  ∧ lower keep_non_ascii "Create_Custom" = lower keep_non_ascii "CREATE_CUSTOM"
  ∧ run echo_send (create_scriptable_object keep_non_ascii "Create_Custom"
                     None None (Some "Foo") (Some "Assets/Foo.asset"))
    = run echo_send (create_scriptable_object keep_non_ascii "create_custom"
                       None None (Some "Foo") (Some "Assets/Foo.asset"))
  ∧ run echo_send (create_scriptable_object keep_non_ascii "Create_Custom"
                     None None (Some "Foo") (Some "Assets/Foo.asset"))
    = run echo_send (create_scriptable_object keep_non_ascii "CREATE_CUSTOM"
                       None None (Some "Foo") (Some "Assets/Foo.asset")).
Proof.
  split; [reflexivity|]. split; [reflexivity|]. split.
  - exact (proj1 (X7_create_ignores_case keep_non_ascii echo_send
                    "Create_Custom" "CREATE_CUSTOM" None None (Some "Foo")
                    (Some "Assets/Foo.asset")) eq_refl).
  - exact (proj2 (X7_create_ignores_case keep_non_ascii echo_send
                    "Create_Custom" "CREATE_CUSTOM" None None (Some "Foo")
                    (Some "Assets/Foo.asset")) eq_refl).
Defined.

Lemma X8_witness :
  ("frobnicate" ∉ property_actions)
  ∧ truthy (Some "Assets/Data/X.asset") = true
  ∧ ∃ ps : gmap string pyval,
      run echo_send (modify_scriptable_object keep_non_ascii "frobnicate"
                       (Some "Assets/Data/X.asset") None PNone None None)
      = (echo_send "HandleModifyScriptableObject" ps,
         [Call "HandleModifyScriptableObject" ps])
      ∧ ps !! "action" = Some (PStr (lower keep_non_ascii "frobnicate")).
Proof.
  assert ("frobnicate" ∉ property_actions) as Hnot.
  { intros H. apply list_elem_of_In in H. simpl in H.
    repeat destruct H as [H|H]; discriminate || contradiction. }
  split; [exact Hnot|]. split; [reflexivity|].
  apply (X8_unlisted_action_forwarded keep_non_ascii echo_send "frobnicate"
           (Some "Assets/Data/X.asset") None PNone None None Hnot).
  reflexivity.
Defined.

Lemma X9_witness :
  truthy (Some "Assets/Data/X.asset") = true
  ∧ truthy (Some "lines") = true
  ∧ PStr "hello" ≠ PNone
  ∧ ∃ ps : gmap string pyval,
      run echo_send (modify_scriptable_object keep_non_ascii "set_array_element"
                       (Some "Assets/Data/X.asset") (Some "lines")
                       (PStr "hello") None (Some (-1)%Z))
      = (echo_send "HandleModifyScriptableObject" ps,
         [Call "HandleModifyScriptableObject" ps])
      ∧ ps !! "index" = Some (PInt (-1)).
Proof.
  split; [reflexivity|]. split; [reflexivity|]. split; [discriminate|].
  apply (X9_full_call_forwarded keep_non_ascii echo_send "set_array_element"
           (Some "Assets/Data/X.asset") (Some "lines") (PStr "hello") None
           (-1)%Z); [reflexivity | reflexivity | discriminate].
Defined.

Lemma X10_witness :
  "remove_array_element" ∈ array_element_actions
  ∧ truthy (Some "A") = true
  ∧ truthy (Some "lines") = true
  ∧ ∃ ps : gmap string pyval,
      run echo_send (modify_scriptable_object keep_non_ascii "remove_array_element"
                       (Some "A") (Some "lines") PNone None (Some 0%Z))
      = (echo_send "HandleModifyScriptableObject" ps,
         [Call "HandleModifyScriptableObject" ps])
      ∧ ps !! "index" = Some (PInt 0).
Proof.
  assert ("remove_array_element" ∈ array_element_actions) as Hx.
  { apply list_elem_of_In. simpl. tauto. }
  split; [exact Hx|]. split; [reflexivity|]. split; [reflexivity|].
  apply (X10_any_index_accepted keep_non_ascii echo_send "remove_array_element"
           (Some "A") (Some "lines") PNone None 0%Z Hx);
    [reflexivity | reflexivity |].
  intros H. apply list_elem_of_In in H. simpl in H.
  repeat destruct H as [H|H]; discriminate || contradiction.
Defined.

Lemma X11_witness :
  (run down_send (modify_scriptable_object keep_non_ascii "Set_Property" (Some "") None PNone
                    None None)).2 = []
  ∧ ∃ msg : string,
      (msg = "asset_path is required"
       ∨ ∃ field, field ∈ ["property_name"; "property_value"; "index"]
                  ∧ msg = field ++ " is required for action '"
                            ++ "Set_Property" ++ "'")
      ∧ ∀ send' property_type',
          run send' (modify_scriptable_object keep_non_ascii "Set_Property" (Some "") None
                       PNone property_type' None)
          = (Returns (PDict {[ "success" := PBool false;
                               "message" := PStr msg;
                               "data" := PNone ]}), []).
Proof.
  assert ((run down_send (modify_scriptable_object keep_non_ascii "Set_Property" (Some "")
                            None PNone None None)).2 = []) as H.
  { reflexivity. }
  split; [exact H|].
  exact (X11_local_failure keep_non_ascii down_send "Set_Property" (Some "") None PNone None
           None H).
Defined.

Lemma X13_witness :
  "get_info" ∈ (modify_actions ++ create_actions)%list
  ∧ Call "HandleModifyScriptableObject"
      {[ "action" := PStr "get_info"; "asset_path" := PStr "Assets/Data/X.asset" ]}
    ∈ ((run echo_send (modify_scriptable_object keep_non_ascii "get_info"
                         (Some "Assets/Data/X.asset") None PNone None None)).2
       ++ (run echo_send (create_scriptable_object keep_non_ascii "get_info" None None None
                            None)).2)%list
  ∧ params (Call "HandleModifyScriptableObject"
              {[ "action" := PStr "get_info";
                 "asset_path" := PStr "Assets/Data/X.asset" ]}) !! "action"
    = Some (PStr "get_info").
Proof.
  assert ("get_info" ∈ (modify_actions ++ create_actions)%list) as Hin.
  { apply list_elem_of_In. simpl. tauto. }
  assert (Call "HandleModifyScriptableObject"
            {[ "action" := PStr "get_info";
               "asset_path" := PStr "Assets/Data/X.asset" ]}
          ∈ ((run echo_send (modify_scriptable_object keep_non_ascii "get_info"
                               (Some "Assets/Data/X.asset") None PNone None
                               None)).2
             ++ (run echo_send (create_scriptable_object keep_non_ascii "get_info" None None
                                  None None)).2)%list) as Hc.
  { rewrite get_info_run. apply elem_of_app. left. apply list_elem_of_here. }
  split; [exact Hin|]. split; [exact Hc|].
  exact (X13_documented_action_verbatim keep_non_ascii echo_send "get_info"
           (Some "Assets/Data/X.asset") None PNone None None None None None
           None _ Hin Hc).
Defined.
